(** * observer_ptr: a non-owning pointer wrapper (namespace [sunfyre])

    Shallow embedding of [observer_ptr.hpp].  Raw pointer types are kept
    abstract behind the interface [Pointer]: a null value, the built-in
    [==], the ordering [std::less] and the hasher [std::hash].  Wrapper
    objects live in a store indexed by object identity, so that the
    mutating members ([reset], [release], [swap]) can be called on aliased
    references exactly as in the C++ code. *)

From stdpp Require Import base decidable numbers functions.

Module sunfyre.

(** ** Ambient language facilities *)

(** What the header uses of a raw pointer type [P] (some [T*]):
    [nullptr], built-in equality, [std::less<P>] and [std::hash<P>].
    [std::less] on pointers is a strict total order. *)
Class Pointer (P : Type) := {
  nullptr : P;
  pointer_eq_dec :: EqDecision P;
  less : P → P → bool;
  less_strict :: StrictOrder (λ p q : P, less p q);
  less_trichotomy :: Trichotomy (λ p q : P, less p q);
  hash : P → N;
}.

(** Implicit pointer conversion [P → Q] ([std::is_convertible<P, Q>]); a
    null pointer converts to the null pointer of the destination type. *)
Class Convertible (P Q : Type) `{Pointer P, Pointer Q} := {
  convert : P → Q;
  convert_nullptr : convert nullptr = nullptr;
}.

(** [std::common_type_t<P1, P2>] of two pointer types, together with the
    implicit conversions of both operands to it. *)
Class CommonType (P1 P2 : Type) `{Pointer P1, Pointer P2} := {
  common_type : Type;
  common_pointer :: Pointer common_type;
  widen1 : P1 → common_type;
  widen2 : P2 → common_type;
  widen1_nullptr : widen1 nullptr = nullptr;
  widen2_nullptr : widen2 nullptr = nullptr;
}.

(** [common_type_t<P2, P1>] is [common_type_t<P1, P2>] with the operands
    exchanged. *)
Definition CommonType_flip {P1 P2} `{Pointer P1, Pointer P2}
    (C : CommonType P1 P2) : CommonType P2 P1 :=
  {| common_type := common_type;
     common_pointer := common_pointer;
     widen1 := widen2;
     widen2 := widen1;
     widen1_nullptr := widen2_nullptr;
     widen2_nullptr := widen1_nullptr |}.

(** [common_type_t<P, P>] is [P] itself. *)
Definition CommonType_same (P : Type) `{Pointer P} : CommonType P P :=
  {| common_type := P;
     common_pointer := _;
     widen1 := id;
     widen2 := id;
     widen1_nullptr := eq_refl;
     widen2_nullptr := eq_refl |}.

(** Every pointer type converts to itself. *)
Definition Convertible_same (P : Type) `{Pointer P} : Convertible P P :=
  {| convert := id; convert_nullptr := eq_refl |}.

(** How a call ends: it returns a value, leaves by an exception, or has
    undefined behaviour. *)
Inductive outcome (A : Type) : Type :=
  | Returns (a : A)
  | Throws
  | Undefined.
Global Arguments Returns {A} a.
Global Arguments Throws {A}.
Global Arguments Undefined {A}.

(** Whether a call left by an exception. *)
Definition throws {A : Type} (o : outcome A) : bool :=
  match o with
  | Throws => true
  | Returns _ | Undefined => false
  end.

(** [std::nullptr_t] has the single value [nullptr]. *)
Definition nullptr_t : Type := unit.

(** ** The wrapper *)

(** [observer_ptr<T>], indexed here by its pointer type [P = T*]: one
    private field [ptr]. *)
Record observer_ptr (P : Type) : Type := Build_observer_ptr { ptr : P }.
Global Arguments Build_observer_ptr {P} ptr.
Global Arguments ptr {P} _.

(** Identity of a wrapper object (what a reference [observer_ptr&] or the
    pointer [this] designates). *)
Definition objref : Type := positive.

Section observer_ptr.
(** [T] is [element_type]; [P] is [element_type*]. *)
Context {T P : Type} `{!Pointer P}.

(** *** Constructors *)

(** [observer_ptr() : ptr(nullptr)] *)
Definition observer_ptr_default : observer_ptr P :=
  {| ptr := nullptr |}.

(** [observer_ptr(std::nullptr_t) : ptr(nullptr)] *)
Definition observer_ptr_nullptr (_ : nullptr_t) : observer_ptr P :=
  {| ptr := nullptr |}.

(** [explicit observer_ptr(element_type* p) : ptr(p)] *)
Definition observer_ptr_explicit (p : P) : observer_ptr P :=
  {| ptr := p |}.

(** [observer_ptr(const observer_ptr&) = default],
    [observer_ptr(observer_ptr&&) = default] *)
Definition observer_ptr_copy (other : observer_ptr P) : observer_ptr P :=
  {| ptr := ptr other |}.
Definition observer_ptr_move (other : observer_ptr P) : observer_ptr P :=
  {| ptr := ptr other |}.

(** *** Observers (const members: they read [*this] only) *)

(** [get() const { return this->ptr; }] *)
Definition get (this : observer_ptr P) : P := ptr this.

(** [operator bool() const { return this->get() != nullptr; }] *)
Definition operator_bool (this : observer_ptr P) : bool :=
  negb (bool_decide (get this = nullptr)).

(** Built-in unary [*] on a raw pointer: the pointee, when the pointer
    is not null and designates a live object of the memory [mem]. *)
Definition deref (mem : P → option T) (p : P) : outcome T :=
  if decide (p = nullptr) then Undefined
  else match mem p with
       | Some v => Returns v
       | None => Undefined
       end.

(** [operator*() const { return *this->get(); }] *)
Definition operator_star (mem : P → option T) (this : observer_ptr P)
    : outcome T :=
  deref mem (get this).

(** [operator->() const { return this->get(); }] *)
Definition operator_arrow (this : observer_ptr P) : P := get this.

(** [explicit operator element_type*() const { return this->get(); }] *)
Definition operator_pointer (this : observer_ptr P) : P := get this.

(** *** The store and the monad of the mutating members *)

(** Machine state: the wrapper objects, and the memory the raw pointers
    point into. *)
Record state : Type := Build_state {
  objs : objref → observer_ptr P;
  heap : P → option T;
}.

Definition M (A : Type) : Type := state → outcome (A * state).

Definition ret {A} (a : A) : M A := λ s, Returns (a, s).

Definition bind {A B} (m : M A) (k : A → M B) : M B :=
  λ s, match m s with
       | Returns (a, s') => k a s'
       | Throws => Throws
       | Undefined => Undefined
       end.

(** Calling a const member [f] on the object [this]. *)
Definition observe {A} (this : objref) (f : observer_ptr P → A) : M A :=
  λ s, Returns (f (objs s this), s).

(** The assignment [this->ptr = p]. *)
Definition assign_ptr (this : objref) (p : P) : M unit :=
  λ s, Returns (tt, {| objs := <[this := {| ptr := p |}]> (objs s);
                       heap := heap s |}).

#[export] Instance M_ret : MRet M := @ret.
#[export] Instance M_bind : MBind M := λ A B k m, bind m k.

(** *** Modifiers *)

(** [reset(element_type* p = nullptr) { this->ptr = p; }] *)
Definition reset (this : objref) (p : P) : M unit := assign_ptr this p.

(** The call [reset()]: the default argument is [nullptr]. *)
Definition reset_default (this : objref) : M unit := reset this nullptr.

(** [release() { element_type* p = this->get(); this->reset(); return p; }] *)
Definition release (this : objref) : M P :=
  p ← observe this get;
  _ ← reset_default this;
  mret p.

(** [std::swap] on the two raw-pointer lvalues [a.ptr] and [b.ptr]:
    [tmp = std::move(a.ptr); a.ptr = std::move(b.ptr); b.ptr = std::move(tmp);] *)
Definition std_swap_ptr (a b : objref) : M unit :=
  tmp ← observe a ptr;
  q ← observe b ptr;
  _ ← assign_ptr a q;
  assign_ptr b tmp.

(** [swap(observer_ptr& other) { using std::swap; swap(this->ptr, other.ptr); }] *)
Definition swap (this other : objref) : M unit := std_swap_ptr this other.

(** [make_observer(T* p) { return observer_ptr<T>(p); }] *)
Definition make_observer (p : P) : observer_ptr P := observer_ptr_explicit p.

(** *** Comparison with [nullptr] *)

(** [operator==(const observer_ptr<W>& p, std::nullptr_t) { return !p; }] *)
Definition operator_eq_nullptr (p : observer_ptr P) (_ : nullptr_t) : bool :=
  negb (operator_bool p).

(** [operator==(std::nullptr_t, const observer_ptr<W>& p) { return !p; }] *)
Definition nullptr_operator_eq (_ : nullptr_t) (p : observer_ptr P) : bool :=
  negb (operator_bool p).

(** [operator!=(const observer_ptr<W>& p, std::nullptr_t)
      { return static_cast<bool>(p); }] *)
Definition operator_ne_nullptr (p : observer_ptr P) (_ : nullptr_t) : bool :=
  operator_bool p.

(** [operator!=(std::nullptr_t, const observer_ptr<W>& p)
      { return static_cast<bool>(p); }] *)
Definition nullptr_operator_ne (_ : nullptr_t) (p : observer_ptr P) : bool :=
  operator_bool p.
End observer_ptr.

Global Arguments state : clear implicits.
Global Arguments M : clear implicits.

(** [template <typename W2, enable_if_t<is_convertible<W2*, element_type*>>...>
     observer_ptr(observer_ptr<W2> other) : ptr(other.get())] *)
Definition observer_ptr_convert {W2 P : Type} `{Convertible W2 P}
    (other : observer_ptr W2) : observer_ptr P :=
  {| ptr := convert (get other) |}.

(** *** Comparison of two wrappers

    Both operands are converted to the common pointer type, as the
    built-in [==] and [std::less<W3>] do with their arguments. *)

(** [operator==(p1, p2) { return p1.get() == p2.get(); }] *)
Definition operator_eq {W1 W2 : Type} `{C : CommonType W1 W2}
    (p1 : observer_ptr W1) (p2 : observer_ptr W2) : bool :=
  bool_decide (widen1 (get p1) = widen2 (get p2)).

(** [operator!=(p1, p2) { return !(p1 == p2); }] *)
Definition operator_ne {W1 W2 : Type} `{C : CommonType W1 W2}
    (p1 : observer_ptr W1) (p2 : observer_ptr W2) : bool :=
  negb (operator_eq p1 p2).

(** [operator<(p1, p2)
      { using W3 = std::common_type_t<W1*, W2*>;
        return std::less<W3>()(p1.get(), p2.get()); }] *)
Definition operator_lt {W1 W2 : Type} `{C : CommonType W1 W2}
    (p1 : observer_ptr W1) (p2 : observer_ptr W2) : bool :=
  less (widen1 (get p1)) (widen2 (get p2)).

(** [operator>(p1, p2) { return p2 < p1; }] *)
Definition operator_gt {W1 W2 : Type} `{C : CommonType W1 W2}
    (p1 : observer_ptr W1) (p2 : observer_ptr W2) : bool :=
  operator_lt (C := CommonType_flip C) p2 p1.

(** [operator<=(p1, p2) { return !(p2 < p1); }] *)
Definition operator_le {W1 W2 : Type} `{C : CommonType W1 W2}
    (p1 : observer_ptr W1) (p2 : observer_ptr W2) : bool :=
  negb (operator_lt (C := CommonType_flip C) p2 p1).

(** [operator>=(p1, p2) { return !(p1 < p2); }] *)
Definition operator_ge {W1 W2 : Type} `{C : CommonType W1 W2}
    (p1 : observer_ptr W1) (p2 : observer_ptr W2) : bool :=
  negb (operator_lt p1 p2).

(** The relations [<] and [<=] decide on two wrappers of one type. *)
Definition lt_same {W : Type} `{!Pointer W} (x y : observer_ptr W) : Prop :=
  operator_lt (C := CommonType_same W) x y = true.
Definition le_same {W : Type} `{!Pointer W} (x y : observer_ptr W) : Prop :=
  operator_le (C := CommonType_same W) x y = true.

(** When [W2*] converts implicitly to [P*], [common_type_t<W2*, P*>] is
    [P*]: the left operand is converted, the right one is taken as it
    is. *)
Definition CommonType_convertible {W2 P : Type} `{Conv : Convertible W2 P}
    : CommonType W2 P :=
  {| common_type := P;
     common_pointer := _;
     widen1 := convert;
     widen2 := id;
     widen1_nullptr := convert_nullptr;
     widen2_nullptr := eq_refl |}.

End sunfyre.

(** ** Integration hooks (namespace [std]) *)

Module std.
Import sunfyre.

(** [swap(observer_ptr<W>& lhs, observer_ptr<W>& rhs) { lhs.swap(rhs); }] *)
Definition swap {T P : Type} `{!Pointer P} (lhs rhs : objref) : M T P unit :=
  sunfyre.swap lhs rhs.

(** [hash<observer_ptr<T>>::operator()(observer_ptr<T> p)
      { return std::hash<T*>()(p.get()); }] *)
Definition hash_observer_ptr {P : Type} `{!Pointer P} (p : observer_ptr P) : N :=
  hash (get p).

End std.

(** ** The whole interface as one call language

    Every operation the header offers on [observer_ptr<T>], with an
    operand of a second wrapper type [observer_ptr<W2>] where the source
    is a template over two pointee types. *)

Module api.
Import sunfyre.

Section operations.
Context {T P W2 : Type} `{!Pointer P, !Pointer W2}.
Context {Conv : Convertible W2 P} {Common : CommonType P W2}.

Inductive operation : Type :=
  | Op_observer_ptr_default
  | Op_observer_ptr_nullptr (n : nullptr_t)
  | Op_observer_ptr_explicit (p : P)
  | Op_observer_ptr_convert (other : observer_ptr W2)
  | Op_observer_ptr_copy (other : objref)
  | Op_observer_ptr_move (other : objref)
  | Op_release (this : objref)
  | Op_reset (this : objref) (p : P)
  | Op_reset_default (this : objref)
  | Op_swap (this other : objref)
  | Op_get (this : objref)
  | Op_operator_bool (this : objref)
  | Op_operator_star (this : objref)
  | Op_operator_arrow (this : objref)
  | Op_operator_pointer (this : objref)
  | Op_make_observer (p : P)
  | Op_operator_eq (p1 : objref) (p2 : observer_ptr W2)
  | Op_operator_ne (p1 : objref) (p2 : observer_ptr W2)
  | Op_operator_eq_nullptr (p : objref) (n : nullptr_t)
  | Op_nullptr_operator_eq (n : nullptr_t) (p : objref)
  | Op_operator_ne_nullptr (p : objref) (n : nullptr_t)
  | Op_nullptr_operator_ne (n : nullptr_t) (p : objref)
  | Op_operator_lt (p1 : objref) (p2 : observer_ptr W2)
  | Op_operator_gt (p1 : objref) (p2 : observer_ptr W2)
  | Op_operator_le (p1 : objref) (p2 : observer_ptr W2)
  | Op_operator_ge (p1 : objref) (p2 : observer_ptr W2)
  | Op_std_swap (lhs rhs : objref)
  | Op_std_hash (p : objref).

(** What a call hands back. *)
Inductive value : Type :=
  | V_void
  | V_bool (b : bool)
  | V_pointer (p : P)
  | V_pointee (v : T)
  | V_observer_ptr (w : observer_ptr P)
  | V_size_t (n : N).

(** A const member that also reads the pointee memory. *)
Definition observe_mem {A} (this : objref)
    (f : (P → option T) → observer_ptr P → outcome A) : M T P A :=
  λ s, match f (heap s) (objs s this) with
       | Returns a => Returns (a, s)
       | Throws => Throws
       | Undefined => Undefined
       end.

Definition call (op : operation) : M T P value :=
  match op with
  | Op_observer_ptr_default => mret (V_observer_ptr observer_ptr_default)
  | Op_observer_ptr_nullptr n =>
      mret (V_observer_ptr (observer_ptr_nullptr n))
  | Op_observer_ptr_explicit p =>
      mret (V_observer_ptr (observer_ptr_explicit p))
  | Op_observer_ptr_convert other =>
      mret (V_observer_ptr (observer_ptr_convert other))
  | Op_observer_ptr_copy other =>
      w ← observe other observer_ptr_copy; mret (V_observer_ptr w)
  | Op_observer_ptr_move other =>
      w ← observe other observer_ptr_move; mret (V_observer_ptr w)
  | Op_release this => p ← release this; mret (V_pointer p)
  | Op_reset this p => _ ← reset this p; mret V_void
  | Op_reset_default this => _ ← reset_default this; mret V_void
  | Op_swap this other => _ ← swap this other; mret V_void
  | Op_get this => p ← observe this get; mret (V_pointer p)
  | Op_operator_bool this => b ← observe this operator_bool; mret (V_bool b)
  | Op_operator_star this =>
      v ← observe_mem this operator_star; mret (V_pointee v)
  | Op_operator_arrow this =>
      p ← observe this operator_arrow; mret (V_pointer p)
  | Op_operator_pointer this =>
      p ← observe this operator_pointer; mret (V_pointer p)
  | Op_make_observer p => mret (V_observer_ptr (make_observer p))
  | Op_operator_eq p1 p2 =>
      b ← observe p1 (λ w, operator_eq w p2); mret (V_bool b)
  | Op_operator_ne p1 p2 =>
      b ← observe p1 (λ w, operator_ne w p2); mret (V_bool b)
  | Op_operator_eq_nullptr p n =>
      b ← observe p (λ w, operator_eq_nullptr w n); mret (V_bool b)
  | Op_nullptr_operator_eq n p =>
      b ← observe p (nullptr_operator_eq n); mret (V_bool b)
  | Op_operator_ne_nullptr p n =>
      b ← observe p (λ w, operator_ne_nullptr w n); mret (V_bool b)
  | Op_nullptr_operator_ne n p =>
      b ← observe p (nullptr_operator_ne n); mret (V_bool b)
  | Op_operator_lt p1 p2 =>
      b ← observe p1 (λ w, operator_lt w p2); mret (V_bool b)
  | Op_operator_gt p1 p2 =>
      b ← observe p1 (λ w, operator_gt w p2); mret (V_bool b)
  | Op_operator_le p1 p2 =>
      b ← observe p1 (λ w, operator_le w p2); mret (V_bool b)
  | Op_operator_ge p1 p2 =>
      b ← observe p1 (λ w, operator_ge w p2); mret (V_bool b)
  | Op_std_swap lhs rhs => _ ← std.swap lhs rhs; mret V_void
  | Op_std_hash p => n ← observe p std.hash_observer_ptr; mret (V_size_t n)
  end.

(** The exception specification each declaration carries in the header:
    the six comparisons of two wrappers are the only functions written
    without [noexcept]. *)
Definition declared_noexcept (op : operation) : bool :=
  match op with
  | Op_operator_eq _ _ | Op_operator_ne _ _
  | Op_operator_lt _ _ | Op_operator_gt _ _
  | Op_operator_le _ _ | Op_operator_ge _ _ => false
  | _ => true
  end.
End operations.

Global Arguments operation : clear implicits.
Global Arguments value : clear implicits.

(** The wrapper objects an operation receives by non-const reference:
    [*this] of [release] and [reset], both operands of [swap] and of
    [std::swap].  Every other parameter is a value or a const
    reference. *)
Definition modifies {P W2 : Type} (op : operation P W2) (o : objref) : bool :=
  match op with
  | Op_release this | Op_reset this _ | Op_reset_default this =>
      bool_decide (o = this)
  | Op_swap a b | Op_std_swap a b => bool_decide (o = a) || bool_decide (o = b)
  | _ => false
  end.

End api.

(** ** A concrete pointer model

    Flat addresses: a pointer is a natural number, the null pointer is
    address 0, [std::less] is the numeric order and [std::hash] the
    address itself.  Two classes, [Derived] with a [Base] subobject at
    offset 8, give a pointer conversion that moves the address. *)

Module flat.
Import sunfyre.

Inductive class_name : Type := Base | Derived.

Record pointer (C : class_name) : Type := Pointer_at { address : N }.
Global Arguments Pointer_at {C} address.
Global Arguments address {C} _.

#[export] Instance address_eq_dec {C} : EqDecision (pointer C).
Proof. solve_decision. Defined.

Definition pointer_less {C} (p q : pointer C) : bool :=
  (address p <? address q)%N.

Definition base_offset : N := 8.

(** [Derived*] to [Base*]: null stays null, any other address is moved
    to the base subobject. *)
Definition derived_to_base (p : pointer Derived) : pointer Base :=
  if decide (address p = 0%N) then Pointer_at 0
  else Pointer_at (address p + base_offset).

(** A store of [observer_ptr<Base>] objects: object 1 observes address
    24, object 2 observes address 40, every other object is empty; the
    memory holds 42 at address 24 and nothing elsewhere. *)
Definition sample_state : state N (pointer Base) :=
  {| objs := <[1%positive := {| ptr := Pointer_at 24 |}]>
             (<[2%positive := {| ptr := Pointer_at 40 |}]>
              (λ _, {| ptr := Pointer_at 0 |}));
     heap := λ p, if decide (address p = 24%N) then Some 42%N else None |}.


(** [sample_state] after objects 1 and 2 are swapped. *)
Definition sample_after_swap : state N (pointer Base) :=
  {| objs := <[2%positive := {| ptr := Pointer_at 24 |}]>
             (<[1%positive := {| ptr := Pointer_at 40 |}]> (objs sample_state));
     heap := heap sample_state |}.

End flat.

(** * Properties *)

(** ** The concrete model is a model *)

Module flat_model.
Import sunfyre flat.

Lemma pointer_less_lt {C} (p q : pointer C) :
  pointer_less p q ↔ (address p < address q)%N.
Proof. unfold pointer_less. rewrite Is_true_true. apply N.ltb_lt. Qed.

Lemma pointer_less_strict C : StrictOrder (λ p q : pointer C, pointer_less p q).
Proof.
  split.
  - intros p Hp. apply pointer_less_lt in Hp. lia.
  - intros p q r Hpq Hqr. apply pointer_less_lt in Hpq, Hqr.
    apply pointer_less_lt. lia.
Qed.

Lemma pointer_less_trichotomy C :
  Trichotomy (λ p q : pointer C, pointer_less p q).
Proof.
  intros [a] [b]. rewrite !pointer_less_lt. simpl.
  destruct (N.lt_trichotomy a b) as [Hlt | [-> | Hgt]]; auto.
Qed.

#[export] Instance flat_Pointer C : Pointer (pointer C) :=
  {| nullptr := Pointer_at 0;
     pointer_eq_dec := address_eq_dec;
     less := pointer_less;
     less_strict := pointer_less_strict C;
     less_trichotomy := pointer_less_trichotomy C;
     hash := address |}.

#[export] Instance derived_to_base_Convertible :
    Convertible (pointer Derived) (pointer Base) :=
  {| convert := derived_to_base; convert_nullptr := eq_refl |}.

(** [common_type_t<Derived*, Base*>] is [Base*]. *)
Definition derived_base_CommonType :
    CommonType (pointer Derived) (pointer Base) :=
  {| common_type := pointer Base;
     common_pointer := flat_Pointer Base;
     widen1 := derived_to_base;
     widen2 := id;
     widen1_nullptr := eq_refl;
     widen2_nullptr := eq_refl |}.

End flat_model.

(** ** Shared facts *)

Section pointer_facts.
Import sunfyre.
Context {P : Type} `{!Pointer P}.
Implicit Types p q r : P.

Lemma less_irrefl p : less p p = false.
Proof.
  destruct (less p p) eqn:E; [|done].
  destruct (irreflexivity (λ x y : P, less x y) p). by rewrite E.
Qed.

Lemma less_trans p q r : less p q = true → less q r = true → less p r = true.
Proof.
  intros Hpq Hqr. apply Is_true_true.
  apply (transitivity (R := λ x y : P, less x y) (y := q));
    by apply Is_true_true.
Qed.

Lemma less_asym p q : less p q = true → less q p = false.
Proof.
  intros Hpq. destruct (less q p) eqn:E; [|done].
  rewrite <- (less_irrefl p). symmetry. by apply (less_trans p q p).
Qed.

Lemma less_total p q : less p q = true ∨ p = q ∨ less q p = true.
Proof.
  destruct (trichotomy (λ x y : P, less x y) p q) as [H | [H | H]].
  - left. by apply Is_true_true.
  - right. by left.
  - right. right. by apply Is_true_true.
Qed.

Lemma operator_bool_true (w : observer_ptr P) :
  operator_bool w = true ↔ get w ≠ nullptr.
Proof.
  unfold operator_bool. by rewrite negb_true_iff, bool_decide_eq_false.
Qed.

Lemma operator_bool_false (w : observer_ptr P) :
  operator_bool w = false ↔ get w = nullptr.
Proof.
  unfold operator_bool. by rewrite negb_false_iff, bool_decide_eq_true.
Qed.

Lemma observer_ptr_eq (a b : observer_ptr P) : get a = get b → a = b.
Proof. destruct a, b. simpl. by intros ->. Qed.
End pointer_facts.

Section store_facts.
Import sunfyre.
Context {T P : Type} `{!Pointer P}.
Implicit Types (s : state T P) (this other : objref) (p : P).

Lemma assign_ptr_run this p s :
  assign_ptr this p s =
  Returns (tt, {| objs := <[this := {| ptr := p |}]> (objs s);
                  heap := heap s |}).
Proof. reflexivity. Qed.

Lemma release_run this s :
  release this s =
  Returns (get (objs s this),
           {| objs := <[this := {| ptr := nullptr |}]> (objs s);
              heap := heap s |}).
Proof. reflexivity. Qed.

Lemma swap_run this other s :
  swap this other s =
  Returns (tt, {| objs := <[other := {| ptr := ptr (objs s this) |}]>
                          (<[this := {| ptr := ptr (objs s other) |}]>
                           (objs s));
                  heap := heap s |}).
Proof. reflexivity. Qed.

(** Frame of [release]: no other wrapper and no pointee is touched. *)
Lemma release_frame this s r s' :
  release this s = Returns (r, s') →
  (∀ other, other ≠ this → objs s' other = objs s other) ∧ heap s' = heap s.
Proof.
  rewrite release_run. intros [= _ <-]. simpl. split; [|done].
  intros other Hne. by rewrite fn_lookup_insert_ne.
Qed.
End store_facts.

(** ** Modifiers *)

Section modifiers.
Import sunfyre.
Context {T P : Type} `{!Pointer P}.
Implicit Types (s : state T P) (this other w a b : objref) (p : P).

(** C1. [release] returns the address [get] held just before the call
    and leaves the wrapper empty: afterwards [get] is [nullptr] and the
    boolean conversion is [false]. *)
Theorem release_returns_held_and_empties this s :
  ∃ s', release this s = Returns (get (objs s this), s')
        ∧ get (objs s' this) = nullptr
        ∧ operator_bool (objs s' this) = false.
Proof.
  eexists. split; [apply release_run|]. simpl.
  rewrite fn_lookup_insert. split; [done|].
  by apply operator_bool_false.
Qed.

(** C2. After [reset(p)] the wrapper holds [p], for every [p], null
    included; [reset()] stores [nullptr]; nothing else changes: every
    other wrapper and the whole pointee memory are as before. *)
Theorem reset_stores_argument this p s :
  (∃ s', reset this p s = Returns (tt, s')
         ∧ get (objs s' this) = p
         ∧ (∀ other, other ≠ this → objs s' other = objs s other)
         ∧ heap s' = heap s)
  ∧ (∃ s', reset_default this s = Returns (tt, s')
           ∧ get (objs s' this) = nullptr
           ∧ (∀ other, other ≠ this → objs s' other = objs s other)
           ∧ heap s' = heap s).
Proof.
  split; eexists; (split; [apply assign_ptr_run|]); simpl;
    rewrite fn_lookup_insert; (split; [done|]); (split; [|done]);
    intros other Hne; by rewrite fn_lookup_insert_ne.
Qed.

(** C7. [swap(a, b)] exchanges the held addresses: afterwards [a] holds
    what [b] held and [b] holds what [a] held; no other wrapper and no
    pointee changes; and [std::swap] on two wrappers is the member
    [swap]. *)
Theorem swap_exchanges_held_addresses a b s :
  (∃ s', swap a b s = Returns (tt, s')
         ∧ get (objs s' a) = get (objs s b)
         ∧ get (objs s' b) = get (objs s a)
         ∧ (∀ other, other ≠ a → other ≠ b → objs s' other = objs s other)
         ∧ heap s' = heap s)
  ∧ std.swap a b s = swap a b s.
Proof.
  split; [|done]. eexists. split; [apply swap_run|]. simpl.
  rewrite fn_lookup_insert. repeat split.
  - destruct (decide (b = a)) as [->|Hne].
    + by rewrite fn_lookup_insert.
    + by rewrite fn_lookup_insert_ne, fn_lookup_insert.
  - intros other Ha Hb. by rewrite !fn_lookup_insert_ne.
Qed.

(** C9. Round trip: the address [release] returns, given to [reset] on
    any wrapper [w2] of the same type ([w] itself included), makes [w2]
    compare equal to [w] as it was before the release. *)
Theorem release_then_reset_round_trip w (w2 : objref) s :
  ∃ r s1 s2, release w s = Returns (r, s1)
             ∧ reset w2 r s1 = Returns (tt, s2)
             ∧ operator_eq (C := CommonType_same P)
                 (objs s2 w2) (objs s w) = true.
Proof.
  do 3 eexists. split; [apply release_run|].
  split; [apply assign_ptr_run|]. simpl.
  rewrite fn_lookup_insert. unfold operator_eq. simpl.
  by apply bool_decide_eq_true.
Qed.
End modifiers.

(** ** Observers *)

Section observers.
Import sunfyre.
Context {T P : Type} `{!Pointer P}.
Implicit Types (w : observer_ptr P) (n : nullptr_t) (s : state T P).

(** C5. The boolean conversion is [true] exactly when the held address
    is not [nullptr]. *)
Theorem operator_bool_iff_not_nullptr w :
  (operator_bool w = true ↔ get w ≠ nullptr)
  ∧ (operator_bool w = false ↔ get w = nullptr).
Proof. split; [apply operator_bool_true | apply operator_bool_false]. Qed.

(** C6. Comparison with [nullptr], in either argument order: [==] is
    [true] exactly for an empty wrapper, [!=] exactly for a non-empty
    one. *)
Theorem nullptr_comparison_iff_empty w n :
  (operator_eq_nullptr w n = true ↔ get w = nullptr)
  ∧ (nullptr_operator_eq n w = true ↔ get w = nullptr)
  ∧ (operator_ne_nullptr w n = true ↔ get w ≠ nullptr)
  ∧ (nullptr_operator_ne n w = true ↔ get w ≠ nullptr)
  ∧ (operator_eq_nullptr w n = true ↔ operator_bool w = false)
  ∧ (operator_ne_nullptr w n = true ↔ operator_bool w = true).
Proof.
  unfold operator_eq_nullptr, nullptr_operator_eq, operator_ne_nullptr,
    nullptr_operator_ne.
  rewrite !negb_true_iff, !operator_bool_false, !operator_bool_true.
  done.
Qed.

(** C10. [operator->] and the explicit conversion to [element_type*]
    return exactly [get()], for every wrapper; on an empty wrapper they
    return [nullptr].  Called on a stored object they return in every
    state, whatever the pointee memory holds, and leave the state as it
    was: they neither test nor read through the address.  Only
    dereferencing the returned null address is undefined. *)
Theorem arrow_and_conversion_return_get w :
  operator_arrow w = get w
  ∧ operator_pointer w = get w
  ∧ operator_arrow (observer_ptr_default : observer_ptr P) = nullptr
  ∧ operator_pointer (observer_ptr_default : observer_ptr P) = nullptr
  ∧ (∀ this s,
       observe this operator_arrow s = Returns (get (objs s this), s)
       ∧ observe this operator_pointer s = Returns (get (objs s this), s))
  ∧ (∀ mem : P → option T,
       deref mem (operator_arrow (observer_ptr_default : observer_ptr P))
       = Undefined).
Proof.
  repeat split. intros mem. unfold deref. simpl.
  by destruct (decide (nullptr = nullptr)).
Qed.
End observers.

(** ** Comparison of two wrappers *)

Section comparison.
Import sunfyre.
Context {W1 W2 : Type} `{!Pointer W1, !Pointer W2}.
Context {Common : CommonType W1 W2}.
Implicit Types (a : observer_ptr W1) (b : observer_ptr W2).

Lemma operator_eq_true a b :
  operator_eq a b = true ↔ widen1 (get a) = widen2 (get b).
Proof. unfold operator_eq. apply bool_decide_eq_true. Qed.

Lemma operator_eq_flip a b :
  operator_eq (C := CommonType_flip Common) b a = operator_eq a b.
Proof. unfold operator_eq. simpl. apply bool_decide_ext. naive_solver. Qed.

(** Exactly one of [a < b], [a == b], [a > b] holds. *)
Lemma operator_lt_eq_gt a b :
  operator_lt a b = true ∧ operator_eq a b = false ∧ operator_gt a b = false
  ∨ operator_lt a b = false ∧ operator_eq a b = true ∧ operator_gt a b = false
  ∨ operator_lt a b = false ∧ operator_eq a b = false ∧ operator_gt a b = true.
Proof.
  unfold operator_gt, operator_lt, operator_eq. simpl.
  destruct (less_total (widen1 (get a)) (widen2 (get b))) as [H | [H | H]].
  - left. split; [done|]. split; [|by apply less_asym].
    apply bool_decide_eq_false. intros E. rewrite E, less_irrefl in H. done.
  - right. left. rewrite H, less_irrefl.
    split; [done|]. split; [|done]. by apply bool_decide_eq_true.
  - right. right. split; [by apply less_asym|]. split; [|done].
    apply bool_decide_eq_false. intros E. rewrite E, less_irrefl in H. done.
Qed.

(** C3. [a == b] holds exactly when the held addresses, taken to their
    common pointer type, are equal; two empty wrappers compare equal;
    [a != b] holds exactly when [a == b] does not. *)
Theorem operator_eq_iff_held_addresses_equal a b :
  (operator_eq a b = true ↔ widen1 (get a) = widen2 (get b))
  ∧ operator_eq (observer_ptr_default : observer_ptr W1)
                (observer_ptr_default : observer_ptr W2) = true
  ∧ (operator_ne a b = true ↔ operator_eq a b = false)
  ∧ (operator_ne a b = false ↔ operator_eq a b = true)
  ∧ (∀ x y : observer_ptr W1,
       operator_eq (C := CommonType_same W1) x y = true ↔ get x = get y).
Proof.
  split; [apply operator_eq_true|]. split.
  { apply operator_eq_true. simpl. by rewrite widen1_nullptr, widen2_nullptr. }
  unfold operator_ne. rewrite negb_true_iff, negb_false_iff.
  split; [done|]. split; [done|].
  intros x y. unfold operator_eq. simpl. apply bool_decide_eq_true.
Qed.
End comparison.

(** ** Ordering *)

(** Wrappers of one type: the relational operators order them as
    [std::less] orders the held addresses. *)
Section ordering.
Import sunfyre.
Context {W : Type} `{!Pointer W}.
Implicit Types x y z : observer_ptr W.

Lemma lt_same_less x y : lt_same x y ↔ less (get x) (get y) = true.
Proof. done. Qed.

Lemma le_same_less x y : le_same x y ↔ less (get y) (get x) = false.
Proof.
  unfold le_same, operator_le, operator_lt. simpl. apply negb_true_iff.
Qed.

Lemma lt_same_StrictOrder : StrictOrder lt_same.
Proof.
  split.
  - intros x Hx. rewrite lt_same_less, less_irrefl in Hx. done.
  - intros x y z. rewrite !lt_same_less. apply less_trans.
Qed.

Lemma le_same_PartialOrder : PartialOrder le_same.
Proof.
  split; [split|].
  - intros x. apply le_same_less, less_irrefl.
  - intros x y z. rewrite !le_same_less. intros Hyx Hzy.
    destruct (less (get z) (get x)) eqn:Hzx; [|done].
    destruct (less_total (get x) (get y)) as [Hxy | [Hxy | Hxy]].
    + by rewrite (less_trans _ _ _ Hzx Hxy) in Hzy.
    + by rewrite <- Hxy, Hzx in Hzy.
    + by rewrite Hxy in Hyx.
  - intros x y. rewrite !le_same_less. intros Hyx Hxy.
    apply observer_ptr_eq.
    destruct (less_total (get x) (get y)) as [H | [H | H]];
      [by rewrite H in Hxy | done | by rewrite H in Hyx].
Qed.

Lemma le_same_TotalOrder : TotalOrder le_same.
Proof.
  split; [apply le_same_PartialOrder|].
  intros x y. unfold strict. rewrite !le_same_less.
  destruct (less_total (get x) (get y)) as [H | [H | H]].
  - left. split; [by apply less_asym | by rewrite H].
  - right. left. by apply observer_ptr_eq.
  - right. right. split; [by apply less_asym | by rewrite H].
Qed.
End ordering.

Section comparison_order.
Import sunfyre.
Context {W1 W2 : Type} `{!Pointer W1, !Pointer W2}.
Context {Common : CommonType W1 W2}.
Implicit Types (a : observer_ptr W1) (b : observer_ptr W2).

(** C4. [a < b] is [std::less] of the common pointer type on the held
    addresses; [a > b] is [b < a], [a <= b] is [!(b < a)] and [a >= b]
    is [!(a < b)]; exactly one of [a < b], [a == b], [a > b] holds; and
    on wrappers of one type [<] is a strict order and [<=] a total
    order. *)
Theorem ordering_is_std_less_of_common_type a b :
  (operator_lt a b = true ↔ less (widen1 (get a)) (widen2 (get b)) = true)
  ∧ operator_gt a b = operator_lt (C := CommonType_flip Common) b a
  ∧ operator_le a b = negb (operator_lt (C := CommonType_flip Common) b a)
  ∧ operator_ge a b = negb (operator_lt a b)
  ∧ (operator_gt a b = true ↔ less (widen2 (get b)) (widen1 (get a)) = true)
  ∧ (operator_le a b = true ↔ less (widen2 (get b)) (widen1 (get a)) = false)
  ∧ (operator_ge a b = true ↔ less (widen1 (get a)) (widen2 (get b)) = false)
  ∧ (operator_lt a b = true ∧ operator_eq a b = false ∧ operator_gt a b = false
     ∨ operator_lt a b = false ∧ operator_eq a b = true ∧ operator_gt a b = false
     ∨ operator_lt a b = false ∧ operator_eq a b = false ∧ operator_gt a b = true)
  ∧ StrictOrder (lt_same (W := W1))
  ∧ TotalOrder (le_same (W := W1)).
Proof.
  split; [done|]. split; [done|]. split; [done|]. split; [done|].
  split; [done|].
  split; [unfold operator_le, operator_lt; simpl; apply negb_true_iff|].
  split; [unfold operator_ge, operator_lt; simpl; apply negb_true_iff|].
  split; [apply operator_lt_eq_gt|].
  split; [apply lt_same_StrictOrder | apply le_same_TotalOrder].
Qed.
End comparison_order.

(** ** Exceptions *)

Section nothrow.
Import sunfyre api.
Context {T P W2 : Type} `{!Pointer P, !Pointer W2}.
Context {Conv : Convertible W2 P} {Common : CommonType P W2}.
Implicit Types (op : operation P W2) (s : state T P).

(** Every operation but [operator*] returns, in every state. *)
Lemma call_returns op s :
(∀ this, op ≠ Op_operator_star this) → ∃ v s', call op s = Returns (v, s').
Proof. intros Hop. destruct op; try (by eauto); by destruct (Hop this). Qed.

(** [operator*] returns exactly when the built-in dereference of the
  held address does. *)
Lemma call_operator_star this s :
call (Op_operator_star this) s =
match operator_star (heap s) (objs s this) with
| Returns v => Returns (V_pointee v, s)
| Throws => Throws
| Undefined => Undefined
end.
Proof.
unfold call, mbind, M_bind, bind, observe_mem.
by destruct (operator_star (heap s) (objs s this)).
Qed.

Lemma operator_star_nothrow (mem : P → option T) (w : observer_ptr P) :
throws (operator_star mem w) = false.
Proof.
unfold operator_star, deref.
destruct (decide (get w = nullptr)); [done|]. by destruct (mem (get w)).
Qed.

(** The six comparisons written without [noexcept] return a boolean and
    leave the state as it was. *)
Lemma undeclared_operations_return op s :
  declared_noexcept op = false → ∃ b, call op s = Returns (V_bool b, s).
Proof. destruct op; try done; intros _; by eexists. Qed.

(** C8. No operation of the header leaves by an exception, in any state
  and for any arguments: constructors, [get], the boolean conversion,
  [operator*], [operator->], the pointer conversion, [reset],
  [release], [swap], [make_observer], every comparison, [std::swap]
  and [std::hash].  The only call that does not return a value is
  [operator*] on a wrapper whose address cannot be dereferenced, and
  that is undefined behaviour, not an exception. *)
Theorem every_operation_is_nothrow op s :
throws (call op s) = false
∧ (call op s = Undefined ↔
   ∃ this, op = Op_operator_star this
           ∧ operator_star (heap s) (objs s this) = Undefined).
Proof.
destruct op;
  try (split; [done|]; split; [done | by intros (? & ? & _)]).
rewrite call_operator_star.
pose proof (operator_star_nothrow (heap s) (objs s this)) as Hn.
destruct (operator_star (heap s) (objs s this)) eqn:E; try done.
- split; [done|]. split; [done|]. intros (this' & [= <-] & H'). congruence.
- split; [done|]. split; [|done]. intros _. by exists this.
Qed.
End nothrow.

(** ** Scenarios on the flat model *)

Section scenarios.
Import sunfyre api flat flat_model.
Local Open Scope positive_scope.

Abbreviation st := (state N (pointer Base)).

(** [make_observer(p).get() == p]. *)
Lemma make_observer_get {P : Type} `{!Pointer P} (p : P) :
  get (make_observer p) = p.
Proof. reflexivity. Qed.

(** [make_observer(addr)] on a cell holding 42 dereferences to 42. *)
Example make_observer_dereferences :
  operator_star (heap sample_state) (make_observer (Pointer_at 24))
  = Returns 42%N.
Proof. reflexivity. Qed.

(** A wrapper over a [Derived] address converts to a wrapper over the
    [Base] address; both compare equal through the common pointer type. *)
Example converting_constructor_compares_equal :
  let d : observer_ptr (pointer Derived) := make_observer (Pointer_at 16) in
  let b : observer_ptr (pointer Base) := observer_ptr_convert d in
  get b = Pointer_at 24
  ∧ operator_eq (C := derived_base_CommonType) d b = true.
Proof. by split. Qed.

(** Releasing object 1 returns address 24 and empties it. *)
Lemma release_returns_held_and_empties_flat :
  ∃ s' : st,
    release 1 sample_state = Returns (Pointer_at 24, s')
    ∧ get (objs s' 1) = Pointer_at 0
    ∧ operator_bool (objs s' 1) = false.
Proof. exact (release_returns_held_and_empties 1 sample_state). Defined.

(** Resetting the empty object 3 to address 24, and to the default. *)
Lemma reset_stores_argument_flat :
  (∃ s' : st,
     reset 3 (Pointer_at 24) sample_state = Returns (tt, s')
     ∧ get (objs s' 3) = Pointer_at 24
     ∧ (∀ other, other ≠ 3 → objs s' other = objs sample_state other)
     ∧ heap s' = heap sample_state)
  ∧ (∃ s' : st,
       reset_default 3 sample_state = Returns (tt, s')
       ∧ get (objs s' 3) = Pointer_at 0
       ∧ (∀ other, other ≠ 3 → objs s' other = objs sample_state other)
       ∧ heap s' = heap sample_state).
Proof. exact (reset_stores_argument 3 (Pointer_at 24) sample_state). Defined.

(** A [Derived] wrapper at 16 against a [Base] wrapper at 24. *)
Lemma operator_eq_iff_held_addresses_equal_flat :
  operator_eq (C := derived_base_CommonType)
    {| ptr := Pointer_at 16 |} {| ptr := Pointer_at 24 |} = true
  ↔ derived_to_base (Pointer_at 16) = Pointer_at 24.
Proof.
  exact (proj1 (operator_eq_iff_held_addresses_equal
                  (Common := derived_base_CommonType)
                  {| ptr := Pointer_at 16 |} {| ptr := Pointer_at 24 |})).
Defined.

(** A [Derived] wrapper at 16 is below a [Base] wrapper at 40. *)
Lemma ordering_is_std_less_of_common_type_flat :
  operator_lt (C := derived_base_CommonType)
    {| ptr := Pointer_at 16 |} {| ptr := Pointer_at 40 |} = true
  ↔ pointer_less (C := Base) (Pointer_at 24) (Pointer_at 40) = true.
Proof.
  exact (proj1 (ordering_is_std_less_of_common_type
                  (Common := derived_base_CommonType)
                  {| ptr := Pointer_at 16 |} {| ptr := Pointer_at 40 |})).
Defined.

(** Object 1 observes address 24. *)
Lemma operator_bool_iff_not_nullptr_flat :
  (operator_bool (objs sample_state 1) = true
   ↔ Pointer_at (C := Base) 24 ≠ Pointer_at 0)
  ∧ (operator_bool (objs sample_state 1) = false
     ↔ Pointer_at (C := Base) 24 = Pointer_at 0).
Proof. exact (operator_bool_iff_not_nullptr (objs sample_state 1)). Defined.

(** Object 3 is empty. *)
Lemma nullptr_comparison_iff_empty_flat :
  operator_eq_nullptr (objs sample_state 3) tt = true
  ↔ Pointer_at (C := Base) 0 = Pointer_at 0.
Proof.
  exact (proj1 (nullptr_comparison_iff_empty (objs sample_state 3) tt)).
Defined.

(** Swapping objects 1 and 2. *)
Lemma swap_exchanges_held_addresses_flat :
  (∃ s' : st,
     swap 1 2 sample_state = Returns (tt, s')
     ∧ get (objs s' 1) = Pointer_at 40
     ∧ get (objs s' 2) = Pointer_at 24
     ∧ (∀ other, other ≠ 1 → other ≠ 2 →
          objs s' other = objs sample_state other)
     ∧ heap s' = heap sample_state)
  ∧ std.swap 1 2 sample_state = swap 1 2 sample_state.
Proof. exact (swap_exchanges_held_addresses 1 2 sample_state). Defined.

(** Dereferencing the empty object 3 does not throw. *)
Lemma every_operation_is_nothrow_flat :
  throws (call (W2 := pointer Base) (Conv := Convertible_same _)
            (Common := CommonType_same _) (Op_operator_star 3) sample_state)
  = false.
Proof.
  exact (proj1 (every_operation_is_nothrow
                  (W2 := pointer Base) (Conv := Convertible_same _)
                  (Common := CommonType_same _)
                  (Op_operator_star 3) sample_state)).
Defined.

(** Releasing object 1 and resetting object 2 with the result. *)
Lemma release_then_reset_round_trip_flat :
  ∃ r (s1 s2 : st),
    release 1 sample_state = Returns (r, s1)
    ∧ reset 2 r s1 = Returns (tt, s2)
    ∧ operator_eq (C := CommonType_same _)
        (objs s2 2) (objs sample_state 1) = true.
Proof. exact (release_then_reset_round_trip 1 2 sample_state). Defined.

(** [operator->] on the empty object 3. *)
Lemma arrow_and_conversion_return_get_flat :
  operator_arrow (objs sample_state 3) = Pointer_at 0.
Proof.
  exact (proj1 (arrow_and_conversion_return_get (T := N) (objs sample_state 3))).
Defined.
End scenarios.

(** * Further properties *)

(** ** How the modifiers compose *)

(** Case analysis on the object identities a store lookup compares. *)
Ltac store_cases :=
  unfold insert, fn_insert; simpl;
  repeat (case_decide; simplify_eq/=); try done.

Section composition.
Import sunfyre.
Context {T P : Type} `{!Pointer P}.
Implicit Types (s : state T P) (this other a b o : objref) (p q : P).

Lemma observer_ptr_eta (w : observer_ptr P) : {| ptr := ptr w |} = w.
Proof. by destruct w. Qed.

(** X1. Swapping the same two wrappers twice restores every wrapper and
    the pointee memory, also when both references name one object. *)
Theorem swap_twice_restores a b s :
  ∃ s', (_ ← swap a b; swap a b) s = Returns (tt, s')
        ∧ (∀ o, objs s' o = objs s o)
        ∧ heap s' = heap s.
Proof.
  eexists. split; [reflexivity|]. simpl. split; [|done].
  intros o. store_cases; apply observer_ptr_eta.
Qed.

(** X2. [a.swap(b)] and [b.swap(a)] leave the same store. *)
Theorem swap_commutes a b s :
  ∃ s1 s2, swap a b s = Returns (tt, s1)
           ∧ swap b a s = Returns (tt, s2)
           ∧ (∀ o, objs s1 o = objs s2 o)
           ∧ heap s1 = heap s2.
Proof.
  do 2 eexists. split; [reflexivity|]. split; [reflexivity|]. simpl.
  split; [|done]. intros o. store_cases.
Qed.

(** X3. Swapping a wrapper with itself changes nothing. *)
Theorem swap_self_is_identity a s :
  ∃ s', swap a a s = Returns (tt, s')
        ∧ (∀ o, objs s' o = objs s o)
        ∧ heap s' = heap s.
Proof.
  eexists. split; [reflexivity|]. simpl. split; [|done].
  intros o. store_cases; apply observer_ptr_eta.
Qed.

(** X4. A second [release] returns [nullptr] and changes nothing more:
    the wrapper stays empty and every object is as the first [release]
    left it. *)
Theorem release_twice this s :
  ∃ s1 s2, release this s = Returns (get (objs s this), s1)
           ∧ release this s1 = Returns (nullptr, s2)
           ∧ (∀ o, objs s2 o = objs s1 o)
           ∧ heap s2 = heap s.
Proof.
  do 2 eexists. split; [reflexivity|]. split.
  - rewrite release_run. simpl. by rewrite fn_lookup_insert.
  - simpl. split; [|done]. intros o. store_cases.
Qed.

(** X5. [reset(p)] followed by [release()] hands [p] back and leaves the
    wrapper empty; no other wrapper and no pointee changes. *)
Theorem reset_then_release this p s :
  ∃ s', (_ ← reset this p; release this) s = Returns (p, s')
        ∧ get (objs s' this) = nullptr
        ∧ (∀ o, o ≠ this → objs s' o = objs s o)
        ∧ heap s' = heap s.
Proof.
  eexists. split.
  - unfold mbind, M_bind, bind. rewrite assign_ptr_run, release_run. simpl.
    by rewrite fn_lookup_insert.
  - simpl. rewrite fn_lookup_insert. split; [done|]. split; [|done].
    intros o Hne. by rewrite !fn_lookup_insert_ne.
Qed.

(** X6. Of two [reset]s on one wrapper only the last counts: the store
    is the one a single [reset(q)] gives. *)
Theorem reset_overwrites this p q s :
  ∃ s1 s2, (_ ← reset this p; reset this q) s = Returns (tt, s1)
           ∧ reset this q s = Returns (tt, s2)
           ∧ (∀ o, objs s1 o = objs s2 o)
           ∧ heap s1 = heap s2.
Proof.
  do 2 eexists. split; [reflexivity|]. split; [reflexivity|]. simpl.
  split; [|done]. intros o. store_cases.
Qed.

(** X7. Exchanging two wrappers by hand,
    [r = a.release(); q = b.release(); a.reset(q); b.reset(r);],
    leaves the store [a.swap(b)] leaves, also when [a] and [b] are one
    object. *)
Theorem swap_by_release_and_reset a b s :
  ∃ s1 s2,
    (r ← release a; q ← release b; _ ← reset a q; reset b r) s
      = Returns (tt, s1)
    ∧ swap a b s = Returns (tt, s2)
    ∧ (∀ o, objs s1 o = objs s2 o)
    ∧ heap s1 = heap s2.
Proof.
  do 2 eexists. split; [reflexivity|]. split; [reflexivity|]. simpl.
  split; [|done]. intros o. unfold get. store_cases.
Qed.
End composition.

(** ** What the operations leave alone *)

Section frame.
Import sunfyre api.
Context {T P W2 : Type} `{!Pointer P, !Pointer W2}.
Context {Conv : Convertible W2 P} {Common : CommonType P W2}.
Implicit Types (op : operation P W2) (s : state T P) (o : objref).

(** Unfolds a call down to the store it returns. *)
Ltac run_call H :=
  cbv [call mbind M_bind bind mret M_ret ret observe observe_mem release
       reset reset_default assign_ptr sunfyre.swap std.swap std_swap_ptr] in H.


(** X9. An operation changes only the wrappers it receives by non-const
    reference; in particular the observers, the constructors, the
    comparisons and the hash change no wrapper at all. *)
Theorem operations_change_only_mutable_operands op s v s' o :
  call op s = Returns (v, s') → modifies op o = false → objs s' o = objs s o.
Proof.
  intros H Hmod.
  destruct op; run_call H; simpl in Hmod;
    try (apply orb_false_iff in Hmod as [Ha Hb]; apply bool_decide_eq_false in Hb);
    try apply bool_decide_eq_false in Hmod;
    try apply bool_decide_eq_false in Ha;
    try (simplify_eq; simpl; by rewrite ?fn_lookup_insert_ne).
  destruct (operator_star (heap s) (objs s this)); by simplify_eq.
Qed.
End frame.

(** ** Dereference *)

Section dereference.
Import sunfyre.
Context {T P : Type} `{!Pointer P}.
Implicit Types (mem : P → option T) (w : observer_ptr P) (v : T).

(** X10. [operator*] returns the pointee exactly when the wrapper is not
    empty and its address designates a live object; in every other case,
    an empty wrapper included, the call is undefined. *)
Theorem operator_star_defined_iff mem w v :
  (operator_star mem w = Returns v
   ↔ operator_bool w = true ∧ mem (get w) = Some v)
  ∧ (operator_star mem w = Undefined
     ↔ operator_bool w = false ∨ mem (get w) = None).
Proof.
  rewrite operator_bool_true, operator_bool_false.
  unfold operator_star, deref.
  destruct (decide (get w = nullptr)) as [Hnull | Hnull].
  - split; split; intuition congruence.
  - destruct (mem (get w)) eqn:E; split; split; intuition congruence.
Qed.
End dereference.

(** ** How the comparisons fit together *)

Section comparison_algebra.
Import sunfyre.
Context {W1 W2 : Type} `{!Pointer W1, !Pointer W2}.
Context {Common : CommonType W1 W2}.
Implicit Types (a : observer_ptr W1) (b : observer_ptr W2).

(** X11. The derived operators decompose as expected: [a <= b] is
    [a < b || a == b], [a >= b] is [a > b || a == b] and [a != b] is
    [a < b || a > b], although the header computes [<=] and [>=] from
    [<] alone and [!=] from [==] alone. *)
Theorem derived_operators_decompose a b :
  operator_le a b = operator_lt a b || operator_eq a b
  ∧ operator_ge a b = operator_gt a b || operator_eq a b
  ∧ operator_ne a b = operator_lt a b || operator_gt a b.
Proof.
  assert (operator_le a b = negb (operator_gt a b)) as -> by done.
  unfold operator_ge, operator_ne.
  destruct (operator_lt_eq_gt a b) as [(-> & -> & ->) | [(-> & -> & ->) | (-> & -> & ->)]];
    done.
Qed.

(** X12. Exchanging the operands mirrors the operator: [b == a] is
    [a == b], [b != a] is [a != b], [b > a] is [a < b], [b < a] is
    [a > b], [b >= a] is [a <= b] and [b <= a] is [a >= b]. *)
Theorem exchanged_operands_mirror a b :
  operator_eq (C := CommonType_flip Common) b a = operator_eq a b
  ∧ operator_ne (C := CommonType_flip Common) b a = operator_ne a b
  ∧ operator_gt (C := CommonType_flip Common) b a = operator_lt a b
  ∧ operator_lt (C := CommonType_flip Common) b a = operator_gt a b
  ∧ operator_ge (C := CommonType_flip Common) b a = operator_le a b
  ∧ operator_le (C := CommonType_flip Common) b a = operator_ge a b.
Proof.
  split; [apply operator_eq_flip|].
  split; [unfold operator_ne; by rewrite operator_eq_flip|].
  done.
Qed.
End comparison_algebra.

Section same_type_comparison.
Import sunfyre.
Context {P : Type} `{!Pointer P}.
Implicit Types (w x y : observer_ptr P) (n : nullptr_t) (p q : P).

Abbreviation eq_same := (operator_eq (C := CommonType_same P)).
Abbreviation ne_same := (operator_ne (C := CommonType_same P)).

(** X13. Comparing with [nullptr] gives what comparing with an empty
    wrapper gives, on either side and for both [==] and [!=]. *)
Theorem nullptr_is_the_empty_wrapper w n :
  operator_eq_nullptr w n = eq_same w observer_ptr_default
  ∧ nullptr_operator_eq n w = eq_same observer_ptr_default w
  ∧ operator_ne_nullptr w n = ne_same w observer_ptr_default
  ∧ nullptr_operator_ne n w = ne_same observer_ptr_default w.
Proof.
  assert (bool_decide (nullptr = get w) = bool_decide (get w = nullptr)) as Hsym
    by (apply bool_decide_ext; naive_solver).
  unfold operator_eq_nullptr, nullptr_operator_eq, operator_ne_nullptr,
    nullptr_operator_ne, operator_ne, operator_eq, operator_bool. simpl.
  rewrite Hsym, negb_involutive. done.
Qed.


(** X15. [make_observer] carries the address over unchanged: the
    wrappers it builds hold, compare, order, test and hash exactly as
    the raw addresses do. *)
Theorem make_observer_reflects_address p q :
  get (make_observer p) = p
  ∧ (eq_same (make_observer p) (make_observer q) = true ↔ p = q)
  ∧ operator_lt (C := CommonType_same P) (make_observer p) (make_observer q)
    = less p q
  ∧ (operator_bool (make_observer p) = true ↔ p ≠ nullptr)
  ∧ std.hash_observer_ptr (make_observer p) = hash p.
Proof.
  split; [done|].
  split; [exact (operator_eq_true (Common := CommonType_same P) _ _)|].
  split; [done|]. split; [apply operator_bool_true | done].
Qed.
End same_type_comparison.

(** ** The converting constructor *)

Section conversion.
Import sunfyre.
Context {W2 P : Type} `{Conv : Convertible W2 P}.
Implicit Types (other : observer_ptr W2).

Abbreviation converted := (observer_ptr_convert (P := P)).

(** X16. The converting constructor keeps an empty wrapper empty, and
    the wrapper it builds compares equal to its source: it is neither
    below nor above it. *)
Theorem converting_constructor_keeps_identity other :
  converted (observer_ptr_default : observer_ptr W2) = observer_ptr_default
  ∧ operator_bool (converted observer_ptr_default) = false
  ∧ operator_eq (C := CommonType_convertible) other (converted other) = true
  ∧ operator_ne (C := CommonType_convertible) other (converted other) = false
  ∧ operator_lt (C := CommonType_convertible) other (converted other) = false
  ∧ operator_gt (C := CommonType_convertible) other (converted other) = false
  ∧ operator_le (C := CommonType_convertible) other (converted other) = true
  ∧ operator_ge (C := CommonType_convertible) other (converted other) = true.
Proof.
  assert (converted (observer_ptr_default : observer_ptr W2)
          = observer_ptr_default) as Hempty.
  { unfold observer_ptr_convert, observer_ptr_default. simpl.
    by rewrite convert_nullptr. }
  assert (operator_eq (C := CommonType_convertible) other (converted other)
          = true) as Heq by (by apply operator_eq_true).
  split; [done|]. split; [rewrite Hempty; by apply operator_bool_false|].
  split; [done|]. split; [unfold operator_ne; by rewrite Heq|].
  unfold operator_le, operator_ge, operator_gt, operator_lt. simpl.
  rewrite less_irrefl. done.
Qed.
End conversion.

(** ** The further properties on the flat model *)

Section further_scenarios.
Import sunfyre api flat flat_model.
Local Open Scope positive_scope.

Abbreviation flat_call :=
  (call (T := N) (W2 := pointer Base) (Conv := Convertible_same _)
     (Common := CommonType_same _)).


(** Swapping objects 1 and 2 leaves object 3 as it was. *)
Lemma operations_change_only_mutable_operands_flat :
  flat_call (Op_swap 1 2) sample_state = Returns (V_void, sample_after_swap)
  ∧ modifies (P := pointer Base) (W2 := pointer Base) (Op_swap 1 2) 3 = false
  ∧ objs sample_after_swap 3 = objs sample_state 3.
Proof.
  split; [reflexivity|]. split; [reflexivity|].
  apply (operations_change_only_mutable_operands
           (W2 := pointer Base) (Conv := Convertible_same _)
           (Common := CommonType_same _)
           (Op_swap 1 2) sample_state V_void sample_after_swap 3); reflexivity.
Defined.

End further_scenarios.
